(** * go-jsonnet [setup.py]: version extraction and build orchestration

    A shallow embedding of [vendor/github.com/google/go-jsonnet/setup.py]:
    the text scan of [get_version], the overridden [build_ext] command
    [BuildJsonnetExt.run], the overridden [test] command
    [NoopTestCommand.__init__] and the extension target [jsonnet_ext]. *)

From Stdlib Require Import String Ascii List Bool Arith ZArith Lia.
Import ListNotations.

Local Open Scope list_scope.
Local Open Scope string_scope.

(** ** Python values and outcomes *)

(** The exceptions the script can see.  [IndexError] comes from indexing a
    string out of range, [Exception] is the one [raise]d by the build step,
    [OSError] stands for whatever [open] or [Popen] raise themselves
    (a missing file or executable is its subclass [FileNotFoundError]). *)
Inductive exn : Type :=
| IndexError (msg : string)
| Exception (msg : string)
| OSError (msg : string).

(** A call either returns a value or raises. *)
Inductive outcome (A : Type) : Type :=
| Returned (a : A)
| Raised (e : exn).

Arguments Returned {A} a.
Arguments Raised {A} e.

(** ** The [str] methods the script uses *)

Module Str.

Definition LF : ascii := "010"%char.
Definition CR : ascii := "013"%char.
Definition SPACE : ascii := "032"%char.
Definition DQUOTE : ascii := "034"%char.

(** A one-character string. *)
Definition chr (c : ascii) : string := String c EmptyString.

(** [sub in s]: [sub] occurs somewhere in [s]. *)
Fixpoint contains (sub s : string) : bool :=
  if prefix sub s then true
  else match s with
       | EmptyString => false
       | String _ s' => contains sub s'
       end.

(** [s[n:]] *)
Fixpoint slice_from (n : nat) (s : string) : string :=
  match n, s with
  | O, _ => s
  | S _, EmptyString => EmptyString
  | S n', String _ s' => slice_from n' s'
  end.

(** [s[i]] for [i >= 0]; out of range raises [IndexError]. *)
Definition getitem (s : string) (i : nat) : outcome ascii :=
  match get i s with
  | Some c => Returned c
  | None => Raised (IndexError "string index out of range")
  end.

(** [s.partition(sep)] for a non-empty [sep]: split at the first
    occurrence of [sep]; when there is none the result is [(s, '', '')]. *)
Fixpoint partition (sep s : string) : string * string * string :=
  if prefix sep s then (EmptyString, sep, slice_from (String.length sep) s)
  else match s with
       | EmptyString => (EmptyString, EmptyString, EmptyString)
       | String c s' =>
           let '(before, found, after) := partition sep s' in
           (String c before, found, after)
       end.

(** [c in chars] for a character [c]. *)
Fixpoint mem (c : ascii) (chars : string) : bool :=
  match chars with
  | EmptyString => false
  | String d chars' => Ascii.eqb c d || mem c chars'
  end.

Fixpoint lstrip (chars s : string) : string :=
  match s with
  | EmptyString => EmptyString
  | String c s' => if mem c chars then lstrip chars s' else s
  end.

Fixpoint rstrip (chars s : string) : string :=
  match s with
  | EmptyString => EmptyString
  | String c s' =>
      match rstrip chars s' with
      | EmptyString => if mem c chars then EmptyString else chr c
      | r => String c r
      end
  end.

(** [s.strip(chars)]: drop the characters of [chars] at both ends. *)
Definition strip (chars s : string) : string :=
  rstrip chars (lstrip chars s).

End Str.

(** ** Reading a text file *)

Module TextFile.

Import Str.

(** [open(path)] reads in text mode with universal newlines: every
    [\r\n] and every lone [\r] arrives as [\n]. *)
Fixpoint universal_newlines (s : string) : string :=
  match s with
  | EmptyString => EmptyString
  | String c s' =>
      if Ascii.eqb c CR then
        String LF
          match s' with
          | String d s'' =>
              if Ascii.eqb d LF then universal_newlines s''
              else universal_newlines s'
          | EmptyString => EmptyString
          end
      else String c (universal_newlines s')
  end.

(** [for line in f]: the lines in file order, each with its terminating
    [\n] (the last line has none when the file does not end in one). *)
Fixpoint split_lines (s : string) : list string :=
  match s with
  | EmptyString => []
  | String c s' =>
      if Ascii.eqb c LF then chr LF :: split_lines s'
      else match split_lines s' with
           | [] => [chr c]
           | l :: ls => String c l :: ls
           end
  end.

Definition lines (contents : string) : list string :=
  split_lines (universal_newlines contents).

End TextFile.

(** ** The host the script runs on *)

Definition path := string.

(** What the operating system answers to a [Popen] call: the spawn itself
    fails (the executable is not on [PATH]: [Popen] raises an [OSError]), or
    a child runs and terminates with a status.  The status is the child's
    exit code, or [-N] when signal [N] killed it. *)
Inductive spawn_result : Type :=
| SpawnFails (e : exn)
| Terminates (status : Z).

(** An [Extension(...)] description. *)
Record Extension : Type := mkExtension {
  name : string;
  sources : list path;
  extra_objects : list path;
  include_dirs : list path;
  language : option string
}.

(** A [build_ext] command object, [self]: the extensions it is to build. *)
Record build_ext : Type := mk_build_ext {
  extensions : list Extension
}.

(** Everything about the machine that the script reads but does not decide:
    the directory of [setup.py], the files under it, the outcome of the
    [n]-th [Popen] call, and whether the inherited [BuildExt.run] raises. *)
Record host : Type := mkHost {
  script_dir : path;
  files : path -> option string;
  spawn : nat -> list string -> path -> spawn_result;
  BuildExt_run_raises : build_ext -> option exn
}.

Inductive stdio : Type := INHERIT | PIPE.

(** What the script does to the outside, in the order it does it. *)
Inductive event : Type :=
| EvPopen (args : list string) (cwd : path) (stdout : stdio)
| EvWait (pid : nat)
| EvBuildExtRun (self : build_ext)
| EvRunTests
| EvPrint (text : string).

Record world : Type := mkWorld {
  popen_calls : nat;
  trace : list event
}.

(** Effectful code: a world goes in, an outcome and a world come out. *)
Definition M (A : Type) : Type := world -> outcome A * world.

Definition ret {A} (a : A) : M A := fun w => (Returned a, w).

Definition raise {A} (e : exn) : M A := fun w => (Raised e, w).

Definition bind {A B} (c : M A) (k : A -> M B) : M B :=
  fun w =>
    match c w with
    | (Returned a, w') => k a w'
    | (Raised e, w') => (Raised e, w')
    end.

Notation "x <- c ;; k" := (bind c (fun x => k))
  (at level 61, c at next level, right associativity).
Notation "c ;;; k" := (bind c (fun _ => k))
  (at level 61, right associativity).

Definition emit (ev : event) : M unit :=
  fun w => (Returned tt, mkWorld (popen_calls w) (trace w ++ [ev])).

(** ** [subprocess.Popen] *)

(** The object [Popen] returns.  [returncode] is [None] until [wait] has
    seen the child terminate; [status] is what the child will end with. *)
Record Popen_obj : Type := mkPopen {
  pid : nat;
  status : Z;
  returncode : option Z
}.

Definition Popen (h : host) (args : list string) (cwd : path) (stdout : stdio)
  : M Popen_obj :=
  fun w =>
    let n := popen_calls w in
    let w' := mkWorld (S n) (trace w ++ [EvPopen args cwd stdout]) in
    match spawn h n args cwd with
    | SpawnFails e => (Raised e, w')
    | Terminates st => (Returned (mkPopen n st None), w')
    end.

(** [p.wait()]: block until the child has terminated, then set
    [p.returncode]. *)
Definition wait (p : Popen_obj) : M Popen_obj :=
  emit (EvWait (pid p)) ;;;
  ret (mkPopen (pid p) (status p) (Some (status p))).

(** [p.returncode != 0]; [None != 0] holds. *)
Definition returncode_ne_0 (p : Popen_obj) : bool :=
  match returncode p with
  | Some rc => negb (Z.eqb rc 0)
  | None => true
  end.

(** ** Module constants *)

Definition DIR (h : host) : path := script_dir h.

Definition LIB_DIR (h : host) : path := DIR h ++ "/c-bindings".

Definition MODULE_SOURCES : list path := ["python/_jsonnet.c"].

(** ** [get_version] *)

(** [os.path.join(a, b)] for a relative [b]. *)
Definition path_join (a b : path) : path :=
  match a with
  | EmptyString => b
  | _ => if Str.contains "/" (Str.slice_from (String.length a - 1) a)
         then a ++ b
         else a ++ "/" ++ b
  end.

(** The argument of [strip]: newline, space and double quote. *)
Definition strip_chars : string :=
  String Str.LF (String Str.SPACE (String Str.DQUOTE EmptyString)).

(** [if 'const' in line and 'version' in line] *)
Definition is_version_line (line : string) : bool :=
  Str.contains "const" line && Str.contains "version" line.

(** [v_code = line.partition('=')[2].strip(...)]: what follows the first
    [=], stripped of newlines, spaces and double quotes at both ends. *)
Definition v_code (line : string) : string :=
  Str.strip strip_chars (snd (Str.partition "=" line)).

(** The [for line in f] loop followed by [return None]. *)
Fixpoint get_version_scan (f : list string) : outcome (option string) :=
  match f with
  | [] => Returned None
  | line :: f' =>
      if is_version_line line then
        match Str.getitem (v_code line) 0 with
        | Raised e => Raised e
        | Returned c =>
            if Ascii.eqb c "v"%char
            then Returned (Some (Str.slice_from 1 (v_code line)))
            else get_version_scan f'
        end
      else get_version_scan f'
  end.

Definition get_version (h : host) : outcome (option string) :=
  match files h (path_join (DIR h) "vm.go") with
  | None => Raised (OSError "No such file or directory")
  | Some contents => get_version_scan (TextFile.lines contents)
  end.

(** ** [BuildJsonnetExt] *)

(** The inherited [BuildExt.run(self)]: setuptools' compile-and-link step
    for [self.extensions]. *)
Definition BuildExt_run (h : host) (self : build_ext) : M unit :=
  emit (EvBuildExtRun self) ;;;
  match BuildExt_run_raises h self with
  | Some e => raise e
  | None => ret tt
  end.

Definition go_build : list string :=
  ["go"; "build"; "-o"; "libgojsonnet.a"; "-buildmode=c-archive"].

(** [BuildJsonnetExt.run] *)
Definition run (h : host) (self : build_ext) : M unit :=
  p <- Popen h go_build (LIB_DIR h) PIPE ;;
  p <- wait p ;;
  if returncode_ne_0 p
  then raise (Exception "Could not build libgojsonnet.a")
  else BuildExt_run h self.

(** ** [NoopTestCommand] *)



(** ** The extension target and the [setup] arguments *)

Definition jsonnet_ext (h : host) : Extension :=
  mkExtension "_gojsonnet"
              MODULE_SOURCES
              [LIB_DIR h ++ "/libgojsonnet.a"]
              ["cpp-jsonnet/include"]
              (Some "c++").

(** [ext_modules=[jsonnet_ext]] *)
Definition ext_modules (h : host) : list Extension := [jsonnet_ext h].

(** ** Reading traces *)


Definition is_compile (ev : event) : bool :=
  match ev with EvBuildExtRun _ => true | _ => false end.


Definition count (f : event -> bool) (t : list event) : nat :=
  List.length (filter f t).

(** The [self] of each [BuildExt.run] call, in order. *)
Fixpoint compiled (t : list event) : list build_ext :=
  match t with
  | [] => []
  | EvBuildExtRun self :: t' => self :: compiled t'
  | _ :: t' => compiled t'
  end.

Definition initial : world := mkWorld 0 [].

(** The events a computation adds to the trace of the world it starts in. *)
Definition events_of {A} (c : M A) (w : world) : list event :=
  skipn (List.length (trace w)) (trace (snd (c w))).

(** ** Reading scans *)

(** Every character of [s] is one of [chars]. *)
Fixpoint all_in (chars s : string) : bool :=
  match s with
  | EmptyString => true
  | String c s' => Str.mem c chars && all_in chars s'
  end.

(** No line of [f] contains both [const] and [version]. *)
Definition no_version_line (f : list string) : bool :=
  forallb (fun line => negb (is_version_line line)) f.

(** The loop goes past [line] without returning or raising: the line lacks
    one of the two words, or its token is non-empty and does not start
    with [v]. *)
Definition passed_over (line : string) : bool :=
  negb (is_version_line line) ||
  match v_code line with
  | EmptyString => false
  | String c _ => negb (Ascii.eqb c "v"%char)
  end.

(** ** Fixtures *)

Definition dq : string := Str.chr Str.DQUOTE.
Definition nl : string := Str.chr Str.LF.

(** [const <name> = "<token>"] *)
Definition const_decl (name token : string) : string :=
  "const " ++ name ++ " = " ++ dq ++ token ++ dq.

(** A checkout in [/src/go-jsonnet] whose [vm.go] holds [contents]. *)
Definition checkout (contents : string) : host :=
  mkHost "/src/go-jsonnet"
         (fun p => if String.eqb p "/src/go-jsonnet/vm.go"
                   then Some contents else None)
         (fun _ _ _ => Terminates 0)
         (fun _ => None).

(** [vm.go] files used as examples. *)

Definition line_bare : string := const_decl "version" "1.0.0" ++ nl.
Definition line_v2 : string := const_decl "version" "v2.0.0" ++ nl.
Definition line_version : string := const_decl "version" "v1.2.3" ++ nl.
Definition line_no_assignment : string := "const version" ++ nl.
Definition line_empty_token : string := const_decl "version" EmptyString ++ nl.
Definition line_package : string := "package jsonnet" ++ nl.

Definition vm_go_version : string :=
  line_package ++ line_bare ++ line_version ++ line_v2.
Definition vm_go_no_assignment : string :=
  line_package ++ line_no_assignment ++ line_v2.
Definition vm_go_empty_token : string :=
  line_package ++ line_empty_token ++ line_v2.

(** A machine on which every [Popen] call ends as [r]. *)
Definition machine (r : spawn_result) : host :=
  mkHost "/src/go-jsonnet" (fun _ => None) (fun _ _ _ => r) (fun _ => None).



Definition could_not_build : exn :=
  Exception "Could not build libgojsonnet.a".

Definition index_error : exn :=
  IndexError "string index out of range".

(** What [run] adds to the trace, by what the operating system answers. *)
Definition run_events (h : host) (self : build_ext) (w : world) : list event :=
  match spawn h (popen_calls w) go_build (LIB_DIR h) with
  | SpawnFails _ => [EvPopen go_build (LIB_DIR h) PIPE]
  | Terminates st =>
      EvPopen go_build (LIB_DIR h) PIPE :: EvWait (popen_calls w) ::
      (if Z.eqb st 0 then [EvBuildExtRun self] else [])
  end.

(** What [run] gives back. *)
Definition run_outcome (h : host) (self : build_ext) (w : world) : outcome unit :=
  match spawn h (popen_calls w) go_build (LIB_DIR h) with
  | SpawnFails e => Raised e
  | Terminates st =>
      if Z.eqb st 0 then
        match BuildExt_run_raises h self with
        | Some e => Raised e
        | None => Returned tt
        end
      else Raised could_not_build
  end.

(** ** Reading the scan as a search *)

(** The loop stops at [line]: it is a version line whose token is empty
    or starts with [v]. *)
Definition decides (line : string) : bool := negb (passed_over line).

(** What the loop body does with a line it stops at. *)
Definition verdict (line : string) : outcome (option string) :=
  match Str.getitem (v_code line) 0 with
  | Raised e => Raised e
  | Returned _ => Returned (Some (Str.slice_from 1 (v_code line)))
  end.

(** The last character of a string. *)
Fixpoint last_char (s : string) : option ascii :=
  match s with
  | EmptyString => None
  | String c s' =>
      match s' with
      | EmptyString => Some c
      | String _ _ => last_char s'
      end
  end.

(** A newline occurs in [s] at most as its last character. *)
Fixpoint lf_only_last (s : string) : bool :=
  match s with
  | EmptyString => true
  | String c s' =>
      match s' with
      | EmptyString => true
      | String _ _ => negb (Ascii.eqb c Str.LF) && lf_only_last s'
      end
  end.



(** The argument that follows [-o] on a command line. *)
Fixpoint output_arg (args : list string) : option string :=
  match args with
  | [] => None
  | a :: rest =>
      if String.eqb a "-o" then hd_error rest else output_arg rest
  end.

(** The file a [Popen] call tells its child to write: the [-o] argument,
    taken from the child's working directory. *)
Definition archive_of (ev : event) : option path :=
  match ev with
  | EvPopen args cwd _ => option_map (path_join cwd) (output_arg args)
  | _ => None
  end.

(** A machine on which [go build] succeeds and the inherited step raises
    [e]. *)
Definition machine_compile_fails (e : exn) : host :=
  mkHost "/src/go-jsonnet" (fun _ => None) (fun _ _ _ => Terminates 0)
         (fun _ => Some e).

(** * Properties *)

(** ** Strings *)

Lemma contains_false_prefix sub s :
  Str.contains sub s = false -> prefix sub s = false.
Proof.
  destruct s; simpl; destruct sub; simpl; try discriminate; auto.
  destruct (Ascii.ascii_dec a0 a); [|reflexivity].
  destruct (prefix sub s); [discriminate | reflexivity].
Qed.

Lemma partition_absent sep s :
  Str.contains sep s = false ->
  Str.partition sep s = (s, EmptyString, EmptyString).
Proof.
  induction s as [|c s IH]; intros H.
  - destruct sep; [discriminate H | reflexivity].
  - pose proof (contains_false_prefix _ _ H) as Hp.
    change (Str.partition sep (String c s))
      with (if prefix sep (String c s)
            then (EmptyString, sep,
                  Str.slice_from (String.length sep) (String c s))
            else let '(before, found, after) := Str.partition sep s in
                 (String c before, found, after)).
    change (Str.contains sep (String c s))
      with (if prefix sep (String c s) then true else Str.contains sep s) in H.
    rewrite Hp in *. rewrite (IH H). reflexivity.
Qed.

Lemma lstrip_all_in chars s :
  all_in chars s = true -> Str.lstrip chars s = EmptyString.
Proof.
  induction s as [|c s IH]; simpl; [reflexivity|].
  intros H. apply andb_prop in H as [Hc Hs].
  rewrite Hc. auto.
Qed.

Lemma strip_all_in chars s :
  all_in chars s = true -> Str.strip chars s = EmptyString.
Proof.
  intros H. unfold Str.strip. rewrite (lstrip_all_in _ _ H). reflexivity.
Qed.

Lemma split_lines_concat s :
  fold_right append EmptyString (TextFile.split_lines s) = s.
Proof.
  induction s as [|c s IH]; [reflexivity|]. simpl.
  destruct (Ascii.eqb c Str.LF) eqn:Hc.
  - apply Ascii.eqb_eq in Hc. subst c. simpl. now rewrite IH.
  - destruct (TextFile.split_lines s) as [|l ls]; simpl in *.
    + now rewrite <- IH.
    + now rewrite IH.
Qed.

(** ** The scan *)


Lemma scan_cons_empty line f :
  is_version_line line = true ->
  v_code line = EmptyString ->
  get_version_scan (line :: f) = Raised index_error.
Proof.
  intros Hm Hv. simpl. rewrite Hm.
  unfold Str.getitem. rewrite Hv. reflexivity.
Qed.

Lemma scan_cons_passed_over line f :
  passed_over line = true ->
  get_version_scan (line :: f) = get_version_scan f.
Proof.
  unfold passed_over. intros H. simpl.
  destruct (is_version_line line); [|reflexivity].
  simpl in H. unfold Str.getitem.
  destruct (v_code line) as [|c r]; [discriminate|]. simpl.
  destruct (Ascii.eqb c "v"); [discriminate | reflexivity].
Qed.

Lemma scan_app_passed_over pre f :
  forallb passed_over pre = true ->
  get_version_scan (pre ++ f) = get_version_scan f.
Proof.
  induction pre as [|line pre IH]; intros H; [reflexivity|].
  simpl in H. apply andb_prop in H as [Hl Hpre].
  rewrite <- app_comm_cons, scan_cons_passed_over by assumption.
  auto.
Qed.

Lemma no_version_line_passed_over pre :
  no_version_line pre = true -> forallb passed_over pre = true.
Proof.
  unfold no_version_line.
  induction pre as [|line pre IH]; simpl; [reflexivity|].
  intros H. apply andb_prop in H as [Hl Hpre].
  unfold passed_over at 1. rewrite Hl, IH by assumption. reflexivity.
Qed.


Lemma get_version_reads h contents :
  files h (path_join (DIR h) "vm.go") = Some contents ->
  get_version h = get_version_scan (TextFile.lines contents).
Proof. intros H. unfold get_version. rewrite H. reflexivity. Qed.

Ltac read_vm_go Hfile Hlines :=
  rewrite (get_version_reads _ _ Hfile), Hlines.

(** ** [get_version] *)













(** C10: when the first version line has no [=], or has only newlines,
    spaces and double quotes after its first [=], the token is empty, so
    [v_code[0]] is out of range and [get_version] raises [IndexError]. *)
Theorem empty_token_raises h contents pre line post :
  files h (path_join (DIR h) "vm.go") = Some contents ->
  TextFile.lines contents = (pre ++ line :: post)%list ->
  no_version_line pre = true ->
  is_version_line line = true ->
  Str.contains "=" line = false \/
  all_in strip_chars (snd (Str.partition "=" line)) = true ->
  v_code line = EmptyString /\
  Str.getitem (v_code line) 0 = Raised index_error /\
  get_version h = Raised index_error.
Proof.
  intros Hfile Hlines Hpre Hline Hrest.
  assert (Hv : v_code line = EmptyString).
  { unfold v_code. destruct Hrest as [Habsent | Hall].
    - rewrite (partition_absent _ _ Habsent). reflexivity.
    - now apply strip_all_in. }
  split; [exact Hv|]. split.
  - rewrite Hv. reflexivity.
  - apply no_version_line_passed_over in Hpre.
    read_vm_go Hfile Hlines.
    rewrite scan_app_passed_over by assumption.
    now apply scan_cons_empty.
Qed.

Lemma empty_token_raises_witness :
  get_version (checkout vm_go_no_assignment) = Raised index_error /\
  get_version (checkout vm_go_empty_token) = Raised index_error.
Proof.
  split.
  - refine (proj2 (proj2 (empty_token_raises
                            (checkout vm_go_no_assignment) vm_go_no_assignment
                            [line_package] line_no_assignment [line_v2]
                            _ _ _ _ _))).
    all: try reflexivity.
    left. reflexivity.
  - refine (proj2 (proj2 (empty_token_raises
                            (checkout vm_go_empty_token) vm_go_empty_token
                            [line_package] line_empty_token [line_v2]
                            _ _ _ _ _))).
    all: try reflexivity.
    right. reflexivity.
Defined.

(** ** The build step *)

Lemma skipn_length_app {A} (t evs : list A) :
  skipn (List.length t) (t ++ evs)%list = evs.
Proof. induction t as [|x t IH]; simpl; auto. Qed.

Lemma run_spec h self w :
  run h self w
  = (run_outcome h self w,
     mkWorld (S (popen_calls w)) (trace w ++ run_events h self w)).
Proof.
  unfold run, run_outcome, run_events, bind, Popen, wait, BuildExt_run,
    returncode_ne_0, emit, ret, raise, bind.
  destruct (spawn h (popen_calls w) go_build (LIB_DIR h)) as [e | st];
    simpl; [reflexivity|].
  destruct (Z.eqb st 0); simpl.
  - destruct (BuildExt_run_raises h self);
      rewrite <- !app_assoc; reflexivity.
  - rewrite <- !app_assoc. reflexivity.
Qed.

Lemma run_events_of h self w :
  events_of (run h self) w = run_events h self w.
Proof.
  unfold events_of. rewrite run_spec. simpl. apply skipn_length_app.
Qed.

Lemma run_fst h self w : fst (run h self w) = run_outcome h self w.
Proof. rewrite run_spec. reflexivity. Qed.

(** C1: when [go build] ends with a return code other than 0, [run] raises
    and [BuildExt.run] is not called. *)
Theorem nonzero_exit_aborts h self w st :
  spawn h (popen_calls w) go_build (LIB_DIR h) = Terminates st ->
  st <> 0%Z ->
  fst (run h self w) = Raised could_not_build /\
  count is_compile (events_of (run h self) w) = 0 /\
  compiled (events_of (run h self) w) = [].
Proof.
  intros Hspawn Hst. apply Z.eqb_neq in Hst.
  rewrite run_fst, run_events_of.
  unfold run_outcome, run_events. rewrite Hspawn, Hst.
  repeat split.
Qed.

Lemma nonzero_exit_aborts_witness :
  fst (run (machine (Terminates 2)) (mk_build_ext (ext_modules (machine (Terminates 2)))) initial)
  = Raised could_not_build /\
  count is_compile
        (events_of (run (machine (Terminates 2))
                        (mk_build_ext (ext_modules (machine (Terminates 2)))))
                   initial) = 0.
Proof.
  pose proof (nonzero_exit_aborts
                (machine (Terminates 2))
                (mk_build_ext (ext_modules (machine (Terminates 2))))
                initial 2%Z eq_refl) as H.
  assert (Hne : 2%Z <> 0%Z) by lia.
  destruct (H Hne) as (Hraise & Hcount & _).
  split; assumption.
Defined.

(** C2: when [go build] ends with return code 0, [run] calls [BuildExt.run]
    once, with the [self] it was given; when [self] carries the script's
    [ext_modules], that is the [_gojsonnet] target as [jsonnet_ext] describes
    it. *)
Theorem zero_exit_compiles_once h self w :
  spawn h (popen_calls w) go_build (LIB_DIR h) = Terminates 0 ->
  count is_compile (events_of (run h self) w) = 1 /\
  compiled (events_of (run h self) w) = [self] /\
  (extensions self = ext_modules h ->
   map extensions (compiled (events_of (run h self) w))
   = [[mkExtension "_gojsonnet"
                   ["python/_jsonnet.c"]
                   [(script_dir h ++ "/c-bindings") ++ "/libgojsonnet.a"]
                   ["cpp-jsonnet/include"]
                   (Some "c++")]]).
Proof.
  intros Hspawn. rewrite run_events_of.
  unfold run_events. rewrite Hspawn. simpl.
  repeat split. intros ->. reflexivity.
Qed.

Lemma zero_exit_compiles_once_witness :
  compiled (events_of (run (machine (Terminates 0))
                           (mk_build_ext (ext_modules (machine (Terminates 0)))))
                      initial)
  = [mk_build_ext (ext_modules (machine (Terminates 0)))].
Proof.
  exact (proj1 (proj2 (zero_exit_compiles_once
                         (machine (Terminates 0))
                         (mk_build_ext (ext_modules (machine (Terminates 0))))
                         initial eq_refl))).
Defined.





(** ** The scan as a search for the first deciding line *)

Lemma scan_cons_decides line f :
  passed_over line = false ->
  get_version_scan (line :: f) = verdict line.
Proof.
  unfold passed_over, verdict. intros H. simpl.
  destruct (is_version_line line); [|discriminate H].
  simpl in H. unfold Str.getitem.
  destruct (v_code line) as [|c r]; [reflexivity|]. simpl.
  destruct (Ascii.eqb c "v"); [reflexivity | discriminate H].
Qed.

Lemma scan_find f :
  get_version_scan f
  = match find decides f with
    | Some line => verdict line
    | None => Returned None
    end.
Proof.
  induction f as [|line f IH]; [reflexivity|].
  cbn [find]. unfold decides at 1.
  destruct (passed_over line) eqn:Hp; cbn [negb].
  - rewrite scan_cons_passed_over by assumption. exact IH.
  - now apply scan_cons_decides.
Qed.

Lemma find_decides_split f line :
  find decides f = Some line ->
  exists pre post,
    f = (pre ++ line :: post)%list /\
    forallb passed_over pre = true /\
    passed_over line = false.
Proof.
  induction f as [|l f IH]; [discriminate|].
  cbn [find]. unfold decides at 1.
  destruct (passed_over l) eqn:Hp; cbn [negb].
  - intros H. destruct (IH H) as (pre & post & -> & Hpre & Hline).
    exists (l :: pre), post. repeat split; [|assumption].
    simpl. now rewrite Hp, Hpre.
  - intros [= <-]. exists [], f. repeat split. assumption.
Qed.


Lemma passed_over_false line :
  passed_over line = false ->
  is_version_line line = true /\
  (v_code line = EmptyString \/
   exists r, v_code line = String "v"%char r).
Proof.
  unfold passed_over. destruct (is_version_line line); [|discriminate].
  simpl. destruct (v_code line) as [|c r]; [auto|].
  destruct (Ascii.eqb_spec c "v"%char) as [-> | _]; [|discriminate].
  intros _. split; [reflexivity|]. right. now exists r.
Qed.

Lemma verdict_cases line :
  passed_over line = false ->
  (v_code line = EmptyString /\ verdict line = Raised index_error) \/
  (exists r, v_code line = String "v"%char r /\
             verdict line = Returned (Some r)).
Proof.
  intros H. destruct (passed_over_false _ H) as [_ [Hv | [r Hv]]].
  - left. split; [assumption|]. unfold verdict, Str.getitem.
    rewrite Hv. reflexivity.
  - right. exists r. split; [assumption|]. unfold verdict, Str.getitem.
    rewrite Hv. reflexivity.
Qed.

Lemma get_version_Returned_reads h x :
  get_version h = Returned x ->
  exists contents,
    files h (path_join (DIR h) "vm.go") = Some contents /\
    get_version_scan (TextFile.lines contents) = Returned x.
Proof.
  unfold get_version.
  destruct (files h (path_join (DIR h) "vm.go")) as [contents|];
    [|discriminate].
  intros H. now exists contents.
Qed.







(** X4: a version that [get_version] returns is never made up: the file
    has a line containing [const] and [version] whose token is [v] followed
    by exactly the returned text. *)
Theorem returned_version_is_a_token h r :
  get_version h = Returned (Some r) ->
  exists contents line,
    files h (path_join (DIR h) "vm.go") = Some contents /\
    In line (TextFile.lines contents) /\
    is_version_line line = true /\
    v_code line = String "v"%char r.
Proof.
  intros H. destruct (get_version_Returned_reads _ _ H) as (contents & Hfile & Hscan).
  rewrite scan_find in Hscan.
  destruct (find decides (TextFile.lines contents)) as [line|] eqn:Hfind;
    [|discriminate].
  destruct (find_decides_split _ _ Hfind) as (pre & post & Hl & _ & Hline).
  exists contents, line. split; [assumption|]. split.
  - rewrite Hl. apply in_or_app. right. left. reflexivity.
  - destruct (passed_over_false _ Hline) as [Hm _]. split; [assumption|].
    destruct (verdict_cases _ Hline) as [[_ Hv] | (r' & Hv & Hr)];
      rewrite Hscan in *; [discriminate|].
    now injection Hr as ->.
Qed.

Lemma returned_version_is_a_token_witness :
  exists contents line,
    files (checkout vm_go_version)
          (path_join (DIR (checkout vm_go_version)) "vm.go") = Some contents /\
    In line (TextFile.lines contents) /\
    is_version_line line = true /\
    v_code line = String "v"%char "1.2.3".
Proof.
  apply (returned_version_is_a_token (checkout vm_go_version) "1.2.3").
  reflexivity.
Defined.

(** ** What a returned version looks like *)

Lemma rstrip_last chars s c :
  last_char (Str.rstrip chars s) = Some c -> Str.mem c chars = false.
Proof.
  induction s as [|a s IH]; [discriminate|].
  cbn [Str.rstrip].
  destruct (Str.rstrip chars s) as [|b r'] eqn:Hr.
  - destruct (Str.mem a chars) eqn:Ha; [discriminate|].
    intros [= <-]. assumption.
  - intros H. apply IH. exact H.
Qed.

Lemma lf_only_last_tail c s :
  lf_only_last (String c s) = true -> lf_only_last s = true.
Proof.
  destruct s as [|d s]; [reflexivity|].
  cbn [lf_only_last]. intros H. now apply andb_prop in H as [_ H].
Qed.

Lemma lf_only_last_slice_from n s :
  lf_only_last s = true -> lf_only_last (Str.slice_from n s) = true.
Proof.
  revert s. induction n as [|n IH]; intros s H; [destruct s; exact H|].
  destruct s as [|c s]; [reflexivity|].
  cbn [Str.slice_from]. apply IH. now apply lf_only_last_tail in H.
Qed.

Lemma lf_only_last_partition sep s :
  lf_only_last s = true ->
  lf_only_last (snd (Str.partition sep s)) = true.
Proof.
  induction s as [|c s IH]; intros H.
  - destruct sep; reflexivity.
  - change (Str.partition sep (String c s))
      with (if prefix sep (String c s)
            then (EmptyString, sep,
                  Str.slice_from (String.length sep) (String c s))
            else let '(before, found, after) := Str.partition sep s in
                 (String c before, found, after)).
    destruct (prefix sep (String c s)).
    + cbn [snd]. now apply lf_only_last_slice_from.
    + apply lf_only_last_tail in H. specialize (IH H).
      destruct (Str.partition sep s) as [[before found] after].
      exact IH.
Qed.

Lemma lf_only_last_lstrip chars s :
  lf_only_last s = true -> lf_only_last (Str.lstrip chars s) = true.
Proof.
  induction s as [|c s IH]; intros H; [reflexivity|].
  cbn [Str.lstrip]. destruct (Str.mem c chars); [|exact H].
  apply IH. now apply lf_only_last_tail in H.
Qed.

Lemma rstrip_no_LF chars s :
  Str.mem Str.LF chars = true ->
  lf_only_last s = true ->
  Str.mem Str.LF (Str.rstrip chars s) = false.
Proof.
  intros Hchars. induction s as [|c s IH]; intros H; [reflexivity|].
  pose proof (lf_only_last_tail _ _ H) as Hs. specialize (IH Hs).
  cbn [Str.rstrip].
  destruct (Str.rstrip chars s) as [|b r'] eqn:Hr.
  - destruct (Str.mem c chars) eqn:Hc; [reflexivity|].
    change (Ascii.eqb Str.LF c || false = false).
    destruct (Ascii.eqb_spec Str.LF c) as [<- | _]; [congruence | reflexivity].
  - destruct s as [|d s']; [discriminate Hr|].
    cbn [lf_only_last] in H. apply andb_prop in H as [Hc _].
    change (Str.mem Str.LF (String c (String b r')))
      with (Ascii.eqb Str.LF c || Str.mem Str.LF (String b r')).
    rewrite IH, Ascii.eqb_sym.
    now destruct (Ascii.eqb c Str.LF).
Qed.

Lemma split_lines_lf_only_last s line :
  In line (TextFile.split_lines s) -> lf_only_last line = true.
Proof.
  revert line. induction s as [|c s IH]; intros line; [intros []|].
  cbn [TextFile.split_lines].
  destruct (Ascii.eqb c Str.LF) eqn:Hc.
  - intros [<- | H]; [reflexivity | now apply IH].
  - destruct (TextFile.split_lines s) as [|l ls].
    + intros [<- | []]. reflexivity.
    + intros [<- | H].
      * destruct l as [|d l']; [reflexivity|].
        cbn [lf_only_last]. rewrite Hc. cbn [negb andb].
        apply (IH (String d l')). left. reflexivity.
      * apply IH. right. assumption.
Qed.

(** X5: a version that [get_version] returns never ends in a newline, a
    space or a double quote. *)
Theorem returned_version_has_clean_end h r c :
  get_version h = Returned (Some r) ->
  last_char r = Some c ->
  Str.mem c strip_chars = false.
Proof.
  intros H Hlast.
  destruct (get_version_Returned_reads _ _ H) as (contents & _ & Hscan).
  rewrite scan_find in Hscan.
  destruct (find decides (TextFile.lines contents)) as [line|] eqn:Hfind;
    [|discriminate].
  destruct (find_decides_split _ _ Hfind) as (_ & _ & _ & _ & Hline).
  destruct (verdict_cases _ Hline) as [[_ Hv] | (r' & Hv & Hr)];
    rewrite Hscan in *; [discriminate|].
  injection Hr as ->.
  apply (rstrip_last strip_chars
                     (Str.lstrip strip_chars (snd (Str.partition "=" line)))).
  fold (Str.strip strip_chars (snd (Str.partition "=" line))).
  fold (v_code line). rewrite Hv.
  destruct r' as [|d r']; [discriminate Hlast | exact Hlast].
Qed.

Lemma returned_version_has_clean_end_witness :
  Str.mem "3"%char strip_chars = false.
Proof.
  apply (returned_version_has_clean_end
           (checkout vm_go_version) "1.2.3" "3"%char); reflexivity.
Defined.

(** X6: a version that [get_version] returns holds no newline. *)
Theorem returned_version_is_one_line h r :
  get_version h = Returned (Some r) ->
  Str.mem Str.LF r = false.
Proof.
  intros H.
  destruct (get_version_Returned_reads _ _ H) as (contents & _ & Hscan).
  rewrite scan_find in Hscan.
  destruct (find decides (TextFile.lines contents)) as [line|] eqn:Hfind;
    [|discriminate].
  destruct (find_decides_split _ _ Hfind) as (pre & post & Hl & _ & Hline).
  destruct (verdict_cases _ Hline) as [[_ Hv] | (r' & Hv & Hr)];
    rewrite Hscan in *; [discriminate|].
  injection Hr as ->.
  assert (Hin : In line (TextFile.lines contents)).
  { rewrite Hl. apply in_or_app. right. left. reflexivity. }
  apply split_lines_lf_only_last in Hin.
  assert (Hno : Str.mem Str.LF (v_code line) = false).
  { unfold v_code, Str.strip. apply rstrip_no_LF; [reflexivity|].
    now apply lf_only_last_lstrip, lf_only_last_partition. }
  rewrite Hv in Hno. cbn in Hno. exact Hno.
Qed.

Lemma returned_version_is_one_line_witness :
  Str.mem Str.LF "1.2.3" = false.
Proof.
  apply (returned_version_is_one_line (checkout vm_go_version) "1.2.3").
  reflexivity.
Defined.

(** ** Line endings *)

Lemma mem_cons_false c d s :
  Str.mem c (String d s) = false ->
  Ascii.eqb c d = false /\ Str.mem c s = false.
Proof. cbn [Str.mem]. intros H. now apply orb_false_elim in H. Qed.






(** ** Which lines are version lines, and what their token is *)

Lemma prefix_append s t : prefix s (s ++ t) = true.
Proof.
  induction s as [|c s IH]; simpl; [now destruct t|].
  destruct (Ascii.ascii_dec c c); [exact IH | congruence].
Qed.

Lemma prefix_split s t :
  prefix s t = true -> exists rest, t = s ++ rest.
Proof.
  revert t. induction s as [|c s IH]; intros t H.
  - now exists t.
  - destruct t as [|d t]; [discriminate|]. simpl in H.
    destruct (Ascii.ascii_dec c d) as [-> | _]; [|discriminate].
    destruct (IH _ H) as [rest ->]. now exists rest.
Qed.

Lemma contains_of_prefix sub s :
  prefix sub s = true -> Str.contains sub s = true.
Proof.
  intros H. destruct s; cbn [Str.contains]; rewrite H; reflexivity.
Qed.

Lemma contains_occurrence sub s :
  Str.contains sub s = true <-> exists a b, s = a ++ sub ++ b.
Proof.
  split.
  - induction s as [|c s IH].
    + cbn [Str.contains]. destruct (prefix sub EmptyString) eqn:Hp; [|discriminate].
      intros _. destruct (prefix_split _ _ Hp) as [rest Hrest].
      exists EmptyString, rest. exact Hrest.
    + change (Str.contains sub (String c s))
        with (if prefix sub (String c s) then true else Str.contains sub s).
      destruct (prefix sub (String c s)) eqn:Hp.
      * intros _. destruct (prefix_split _ _ Hp) as [rest Hrest].
        exists EmptyString, rest. exact Hrest.
      * intros H. destruct (IH H) as (a & b & ->).
        now exists (String c a), b.
  - intros (a & b & ->). induction a as [|c a IH].
    + change (EmptyString ++ sub ++ b) with (sub ++ b).
      apply contains_of_prefix. apply prefix_append.
    + change (Str.contains sub (String c a ++ sub ++ b))
        with (if prefix sub (String c (a ++ sub ++ b)) then true
              else Str.contains sub (a ++ sub ++ b)).
      rewrite IH. now destruct (prefix sub (String c (a ++ sub ++ b))).
Qed.

(** X8: a line is a version line exactly when the texts [const] and
    [version] both occur somewhere in it: in either order, and also inside
    longer words. *)
Theorem version_line_iff_both_occur line :
  is_version_line line = true <->
  (exists a b, line = a ++ "const" ++ b) /\
  (exists a b, line = a ++ "version" ++ b).
Proof.
  unfold is_version_line. rewrite andb_true_iff.
  now rewrite !contains_occurrence.
Qed.

Lemma partition_first_char c a b :
  Str.mem c a = false ->
  Str.partition (Str.chr c) (a ++ String c b) = (a, Str.chr c, b).
Proof.
  induction a as [|d a IH]; intros H.
  - cbn [append].
    change (Str.partition (Str.chr c) (String c b))
      with (if prefix (Str.chr c) (String c b)
            then (EmptyString, Str.chr c, Str.slice_from 1 (String c b))
            else let '(before, found, after) :=
                   Str.partition (Str.chr c) b in
                 (String c before, found, after)).
    replace (prefix (Str.chr c) (String c b)) with true; [reflexivity|].
    simpl. destruct (Ascii.ascii_dec c c); [now destruct b | congruence].
  - apply mem_cons_false in H as [Hc Ha].
    change (Str.partition (Str.chr c) (String d a ++ String c b))
      with (if prefix (Str.chr c) (String d (a ++ String c b))
            then (EmptyString, Str.chr c,
                  Str.slice_from 1 (String d (a ++ String c b)))
            else let '(before, found, after) :=
                   Str.partition (Str.chr c) (a ++ String c b) in
                 (String d before, found, after)).
    replace (prefix (Str.chr c) (String d (a ++ String c b))) with false.
    + now rewrite (IH Ha).
    + simpl. destruct (Ascii.ascii_dec c d) as [-> | _]; [|reflexivity].
      now rewrite Ascii.eqb_refl in Hc.
Qed.

(** X9: the token of a line is taken after its first [=]: when no [=]
    occurs in [a], the token of [a = b] is [b] without the newlines, spaces
    and double quotes at its two ends, whatever further [=] signs [b]
    holds. *)
Theorem token_follows_first_assignment a b :
  Str.mem "="%char a = false ->
  v_code (a ++ "=" ++ b) = Str.strip strip_chars b.
Proof.
  intros H. unfold v_code.
  change (a ++ "=" ++ b) with (a ++ String "="%char b).
  change "=" with (Str.chr "="%char).
  now rewrite (partition_first_char _ _ _ H).
Qed.

Lemma token_follows_first_assignment_witness :
  v_code ("const version " ++ "=" ++ " v1=2 " ++ nl)
  = Str.strip strip_chars (" v1=2 " ++ nl).
Proof.
  apply (token_follows_first_assignment "const version " (" v1=2 " ++ nl)).
  reflexivity.
Defined.

(** ** More on the build step *)


(** X11: [run] does not catch what the inherited step raises: after a
    [go build] that ended with return code 0, an exception of
    [BuildExt.run] comes out of [run] unchanged, after the one spawn, the
    wait and the one compile call. *)
Theorem compile_error_propagates h self w e :
  spawn h (popen_calls w) go_build (LIB_DIR h) = Terminates 0 ->
  BuildExt_run_raises h self = Some e ->
  fst (run h self w) = Raised e /\
  events_of (run h self) w
  = [EvPopen go_build (LIB_DIR h) PIPE; EvWait (popen_calls w);
     EvBuildExtRun self].
Proof.
  intros Hspawn Hraise. rewrite run_fst, run_events_of.
  unfold run_outcome, run_events. rewrite Hspawn, Hraise.
  split; reflexivity.
Qed.

Lemma compile_error_propagates_witness :
  fst (run (machine_compile_fails (Exception "command 'gcc' failed"))
           (mk_build_ext []) initial)
  = Raised (Exception "command 'gcc' failed").
Proof.
  exact (proj1 (compile_error_propagates
                  (machine_compile_fails (Exception "command 'gcc' failed"))
                  (mk_build_ext []) initial
                  (Exception "command 'gcc' failed") eq_refl eq_refl)).
Defined.

Lemma slice_from_last a c :
  last_char a = Some c ->
  Str.slice_from (String.length a - 1) a = Str.chr c.
Proof.
  induction a as [|x a IH]; [discriminate|].
  destruct a as [|y a'].
  - intros [= <-]. reflexivity.
  - intros H. specialize (IH H).
    cbn [String.length] in *.
    rewrite Nat.sub_succ, Nat.sub_0_r in *.
    exact IH.
Qed.

Lemma last_char_append a b c :
  last_char b = Some c -> last_char (a ++ b) = Some c.
Proof.
  intros H. induction a as [|x a IH]; [exact H|].
  cbn [append last_char]. rewrite IH.
  destruct (a ++ b) eqn:E; [|reflexivity].
  try rewrite E in IH. discriminate IH.
Qed.

Lemma path_join_dir a b c :
  last_char a = Some c -> c <> "/"%char ->
  path_join a b = a ++ "/" ++ b.
Proof.
  intros Hlast Hc. unfold path_join.
  rewrite (slice_from_last _ _ Hlast).
  destruct a as [|x a']; [discriminate Hlast|].
  replace (Str.contains "/" (Str.chr c)) with false; [reflexivity|].
  unfold Str.chr. cbn [Str.contains prefix].
  destruct (Ascii.ascii_dec "/" c) as [<- | _];
    [contradiction | reflexivity].
Qed.

(** X12: the archive the extension links is the file [go build] is told
    to write: the first thing [run] does is a [Popen] whose [-o] argument,
    taken from its working directory, is the one entry of [extra_objects]
    of [jsonnet_ext]. *)
Theorem linked_archive_is_the_one_built h self w :
  exists ev rest a,
    events_of (run h self) w = ev :: rest /\
    archive_of ev = Some a /\
    extra_objects (jsonnet_ext h) = [a].
Proof.
  assert (Ha : path_join (LIB_DIR h) "libgojsonnet.a"
               = LIB_DIR h ++ "/libgojsonnet.a").
  { apply (path_join_dir _ _ "s"%char); [|discriminate].
    unfold LIB_DIR. now apply last_char_append. }
  rewrite run_events_of. unfold run_events.
  destruct (spawn h (popen_calls w) go_build (LIB_DIR h)) as [e | st];
    eexists; eexists; exists (LIB_DIR h ++ "/libgojsonnet.a");
    (split; [reflexivity|]); (split; [|reflexivity]);
    cbn [archive_of]; change (output_arg go_build) with (Some "libgojsonnet.a");
    cbn [option_map]; now rewrite Ha.
Qed.
